(** * termdash, package [button]: widget options and write options

    A shallow embedding of [widgets/button/options.go] and
    [widgets/button/write_options.go].

    Go's functional options (closures over a pointer to the record) mutate
    the record in place; here an option is a function from the record before
    to the record after, and a sequence of [set] calls is a left fold.  Go's [int]
    is a 64-bit two's-complement integer: it is a [Z] and the one arithmetic
    operation of the package ([textWidth + 2]) wraps explicitly.  An [error]
    is either [nil] or the message built by [fmt.Errorf]. *)

From Stdlib Require Import ZArith List String Ascii DecimalString Lia.
From Stdlib Require DecimalPos DecimalZ.
Import ListNotations.
Local Open Scope Z_scope.

(** ** Go's [int] *)

Module GoInt.

Definition bits : Z := 64.
Definition min_int : Z := - 2 ^ (bits - 1).
Definition max_int : Z := 2 ^ (bits - 1) - 1.

Definition in_range (z : Z) : Prop := min_int <= z <= max_int.

(** Two's-complement wrap-around of a mathematical integer. *)
Definition wrap (z : Z) : Z := (z - min_int) mod 2 ^ bits + min_int.

(** Go's [a + b] on [int]. *)
Definition add (a b : Z) : Z := wrap (a + b).

End GoInt.

(** ** Package [fmt], as far as [validate] uses it *)

Module fmt.

(** The verb [%d] on an integer: decimal digits, a leading [-] when
    negative. *)
Definition d (z : Z) : string := NilZero.string_of_int (Z.to_int z).

(** [fmt.Sprintf] restricted to the verb [%d], the only one the package
    uses; an operand that is missing prints as Go prints it. *)
Fixpoint Sprintf (format : string) (args : list Z) : string :=
  match format with
  | EmptyString => EmptyString
  | String "%" (String "d" rest) =>
      match args with
      | a :: args' => (d a ++ Sprintf rest args')%string
      | [] => ("%!d(MISSING)" ++ Sprintf rest [])%string
      end
  | String c rest => String c (Sprintf rest args)
  end.

End fmt.

(** Go's [error]: [nil], or a value whose [Error()] text is [msg]. *)
Inductive error : Type :=
| nil_error
| Errorf (msg : string).

(** [strings.Contains(s, sub)], as a proposition. *)
Definition Contains (s sub : string) : Prop :=
  exists pre post : string, s = (pre ++ sub ++ post)%string.

(** ** Package [cell] (imported) *)

Module cell.

(** [type Color int]. *)
Definition Color : Type := Z.

(** The two named colors [options.go] refers to.  Their numeric values are
    declared in package [cell], outside the embedded files, so they are
    taken as parameters. *)
Class Constants : Type := {
  ColorBlack : Color;
  ColorCyan : Color
}.

(** Modelled from the spec: the per-cell styling directive [cell.Option],
    whose declaration is in package [cell], outside the embedded files.  The
    spec treats it as an atomic unit of which it needs to build a "set
    foreground color" directive and to tell whether one sets the foreground
    color, with background color as the other example. *)
Inductive Option : Type :=
| FgColor (c : Color)
| BgColor (c : Color).

(** Does the directive set a foreground color? *)
Definition setsFgColor (o : Option) : bool :=
  match o with
  | FgColor _ => true
  | BgColor _ => false
  end.

(** Does some directive of the list set a foreground color? *)
Definition hasFgColor (opts : list Option) : bool := existsb setsFgColor opts.

(** How many directives of the list set a foreground color. *)
Definition countFgColor (opts : list Option) : nat :=
  List.length (filter setsFgColor opts).

(** Modelled from the spec: the styling of one cell and the application of
    a list of directives to it, "in sequence with later entries winning on
    conflicting attributes". *)
Record Options : Type := {
  fg : Color;
  bg : Color
}.

Definition Set_ (o : Option) (co : Options) : Options :=
  match o with
  | FgColor c => {| fg := c; bg := bg co |}
  | BgColor c => {| fg := fg co; bg := c |}
  end.

Definition applyAll (opts : list Option) (co : Options) : Options :=
  fold_left (fun acc o => Set_ o acc) opts co.

End cell.

(** ** Package [keyboard] (imported) *)

Module keyboard.

(** [type Key rune]; its zero value is [0]. *)
Definition Key : Type := Z.

(** [keyboard.KeyEnter] is declared outside the embedded files and taken as
    a parameter. *)
Class Constants : Type := {
  KeyEnter : Key
}.

End keyboard.

(** ** Package [button] *)

Module button.

(** *** options.go *)

(** [options] holds the provided options. *)
Record options : Type := {
  fillColor : cell.Color;
  textColor : cell.Color;
  shadowColor : cell.Color;
  height : Z;
  width : Z;
  key : keyboard.Key
}.

(** [type option], a func on a pointer to [options]: the only
    implementation of the interface [Option], whose method [set] is
    unexported. *)
Definition option : Type := options -> options.

(** [func (o option) set]. *)
Definition option_set (o : option) (opts : options) : options := o opts.

(** [func validate() error] on a pointer to [options]. *)
Definition validate (o : options) : error :=
  let min := 1 in
  if height o <? min then
    Errorf (fmt.Sprintf "invalid height %d, must be %d <= height" [height o; min])
  else
    let min := 1 in
    if width o <? min then
      Errorf (fmt.Sprintf "invalid width %d, must be %d <= width" [width o; min])
    else nil_error.

Definition DefaultFillColor `{cell.Constants} : cell.Color := cell.ColorCyan.
Definition DefaultTextColor `{cell.Constants} : cell.Color := cell.ColorBlack.
Definition DefaultShadowColor : cell.Color := 250.
Definition DefaultHeight : Z := 2.
Definition DefaultKey `{keyboard.Constants} : keyboard.Key := keyboard.KeyEnter.

(** [func newOptions(textWidth int)].  The composite literal names
    five of the six fields; [key] is not among them and so holds the zero
    value of [keyboard.Key]. *)
Definition newOptions `{cell.Constants} (textWidth : Z) : options :=
  {| fillColor := DefaultFillColor;
     textColor := DefaultTextColor;
     shadowColor := DefaultShadowColor;
     height := DefaultHeight;
     width := GoInt.add textWidth 2;
     key := 0 |}.

Definition FillColor (c : cell.Color) : option :=
  fun opts =>
    {| fillColor := c;
       textColor := textColor opts;
       shadowColor := shadowColor opts;
       height := height opts;
       width := width opts;
       key := key opts |}.

Definition TextColor (c : cell.Color) : option :=
  fun opts =>
    {| fillColor := fillColor opts;
       textColor := c;
       shadowColor := shadowColor opts;
       height := height opts;
       width := width opts;
       key := key opts |}.

Definition ShadowColor (c : cell.Color) : option :=
  fun opts =>
    {| fillColor := fillColor opts;
       textColor := textColor opts;
       shadowColor := c;
       height := height opts;
       width := width opts;
       key := key opts |}.

Definition Height (cells : Z) : option :=
  fun opts =>
    {| fillColor := fillColor opts;
       textColor := textColor opts;
       shadowColor := shadowColor opts;
       height := cells;
       width := width opts;
       key := key opts |}.

Definition Width (cells : Z) : option :=
  fun opts =>
    {| fillColor := fillColor opts;
       textColor := textColor opts;
       shadowColor := shadowColor opts;
       height := height opts;
       width := cells;
       key := key opts |}.

Definition Key (k : keyboard.Key) : option :=
  fun opts =>
    {| fillColor := fillColor opts;
       textColor := textColor opts;
       shadowColor := shadowColor opts;
       height := height opts;
       width := width opts;
       key := k |}.

(** Modelled from the spec: the loop of the widget constructor that applies
    each option in the order given ([for _, o := range opts { o.set(opt) }]);
    the constructor itself ([button.go]) is not among the embedded files. *)
Definition applyOptions (opts : list option) (o : options) : options :=
  fold_left (fun acc f => option_set f acc) opts o.

(** Modelled from the spec: the option application engine of section 4.1,
    the part of the widget constructor ([button.go], not among the embedded
    files) that builds the default record from the label width, applies the
    options in order and validates once, returning the record or the error. *)
Definition construct `{cell.Constants} (textWidth : Z) (opts : list option)
  : string + options :=
  let o := applyOptions opts (newOptions textWidth) in
  match validate o with
  | nil_error => inr o
  | Errorf msg => inl msg
  end.

(** *** write_options.go *)

(** [writeOptions] stores the provided options. *)
Record writeOptions : Type := {
  cellOpts : list cell.Option
}.

(** [func setDefaultFgColor(c cell.Color)] on a pointer to [writeOptions]:
    [append([]cell.Option{cell.FgColor(c)}, wo.cellOpts...)]. *)
Definition setDefaultFgColor (wo : writeOptions) (c : cell.Color) : writeOptions :=
  {| cellOpts := [cell.FgColor c] ++ cellOpts wo |}.

(** [type writeOption], a func on a pointer to [writeOptions]. *)
Definition writeOption : Type := writeOptions -> writeOptions.

(** [func (wo writeOption) set]. *)
Definition writeOption_set (wo : writeOption) (wOpts : writeOptions) : writeOptions :=
  wo wOpts.

(** [func newWriteOptions(wOpts ...WriteOption)]: the zero
    record, then every option in order. *)
Definition newWriteOptions (wOpts : list writeOption) : writeOptions :=
  fold_left (fun wo o => writeOption_set o wo) wOpts {| cellOpts := [] |}.

(** [func WriteCellOpts(opts ...cell.Option) WriteOption]. *)
Definition WriteCellOpts (opts : list cell.Option) : writeOption :=
  fun wOpts => {| cellOpts := opts |}.

(** One assignment of the imported constants, on which the model is run at
    concrete inputs. *)
Definition sample_colors : cell.Constants :=
  {| cell.ColorBlack := 1; cell.ColorCyan := 7 |}.

(** The six fields of [options]; all of them hold integers ([cell.Color]
    and [keyboard.Key] are integer types), so one reader serves them all. *)
Inductive field : Type :=
| fFillColor | fTextColor | fShadowColor | fHeight | fWidth | fKey.

Definition field_eqb (f g : field) : bool :=
  match f, g with
  | fFillColor, fFillColor | fTextColor, fTextColor
  | fShadowColor, fShadowColor | fHeight, fHeight
  | fWidth, fWidth | fKey, fKey => true
  | _, _ => false
  end.

Definition get (f : field) (o : options) : Z :=
  match f with
  | fFillColor => fillColor o
  | fTextColor => textColor o
  | fShadowColor => shadowColor o
  | fHeight => height o
  | fWidth => width o
  | fKey => key o
  end.

(** [opt] assigns [v] to the field [f] and leaves every other field as it
    was. *)
Definition assigns (opt : option) (f : field) (v : Z) : Prop :=
  forall (o : options) (g : field),
    get g (option_set opt o) = if field_eqb g f then v else get g o.

(** Of two options built by [ctor] and applied one after the other, only the
    later one shows in the record. *)
Definition last_write_wins (ctor : Z -> option) (f : field) : Prop :=
  forall (o : options) (a b : Z),
    option_set (ctor b) (option_set (ctor a) o) = option_set (ctor b) o /\
    get f (option_set (ctor b) (option_set (ctor a) o)) = b.

(** The six public constructors of widget options, each with the field it
    is documented to set. *)
Definition constructors : list ((Z -> option) * field) :=
  [ (FillColor, fFillColor); (TextColor, fTextColor);
    (ShadowColor, fShadowColor); (Height, fHeight);
    (Width, fWidth); (Key, fKey) ].

(** The public constructor that sets a given field. *)
Definition ctor (f : field) : Z -> option :=
  match f with
  | fFillColor => FillColor
  | fTextColor => TextColor
  | fShadowColor => ShadowColor
  | fHeight => Height
  | fWidth => Width
  | fKey => Key
  end.

(** A call of a public constructor: the field it sets and its argument. *)
Definition setting : Type := (field * Z)%type.

Definition build (s : setting) : option := ctor (fst s) (snd s).

(** The argument of the last setting of the list that names field [f]. *)
Fixpoint last_setting (f : field) (ss : list setting) : Datatypes.option Z :=
  match ss with
  | [] => None
  | s :: rest =>
      match last_setting f rest with
      | Some v => Some v
      | None => if field_eqb f (fst s) then Some (snd s) else None
      end
  end.

(** The text of the spec's [InvalidDimension] error: the dimension's name,
    the offending value and the violated minimum. *)
Definition InvalidDimension (dim : string) (value min : Z) : string :=
  ("invalid " ++ dim ++ " " ++ fmt.d value ++ ", must be " ++ fmt.d min
     ++ " <= " ++ dim)%string.

End button.

(** * Properties *)

(** ** Go's [int] *)

Lemma GoInt_wrap_small (z : Z) : GoInt.in_range z -> GoInt.wrap z = z.
Proof.
  unfold GoInt.in_range, GoInt.wrap, GoInt.min_int, GoInt.max_int, GoInt.bits.
  replace (2 ^ (64 - 1)) with 9223372036854775808 by reflexivity.
  replace (2 ^ 64) with 18446744073709551616 by reflexivity.
  intros Hz. rewrite Z.mod_small; lia.
Qed.

Lemma GoInt_wrap_in_range (z : Z) : GoInt.in_range (GoInt.wrap z).
Proof.
  unfold GoInt.in_range, GoInt.wrap, GoInt.min_int, GoInt.max_int, GoInt.bits.
  replace (2 ^ (64 - 1)) with 9223372036854775808 by reflexivity.
  replace (2 ^ 64) with 18446744073709551616 by reflexivity.
  match goal with
  | |- context [?a mod ?b] => pose proof (Z.mod_pos_bound a b ltac:(lia))
  end.
  lia.
Qed.

Lemma GoInt_add_small (a b : Z) : GoInt.in_range (a + b) -> GoInt.add a b = a + b.
Proof. intros Hab. unfold GoInt.add. now apply GoInt_wrap_small. Qed.

(** ** Widget options *)

Section WidgetOptions.

Import button.

Context {colors : cell.Constants} {keys : keyboard.Constants}.

(** What [validate] answers, by the two comparisons it makes. *)
Lemma validate_height_low (o : options) :
  height o < 1 -> validate o = Errorf (InvalidDimension "height" (height o) 1).
Proof.
  intros Hh. unfold validate. cbv zeta.
  destruct (Z.ltb_spec (height o) 1) as [_ | Hge]; [reflexivity | lia].
Qed.

Lemma validate_width_low (o : options) :
  1 <= height o -> width o < 1 ->
  validate o = Errorf (InvalidDimension "width" (width o) 1).
Proof.
  intros Hh Hw. unfold validate. cbv zeta.
  destruct (Z.ltb_spec (height o) 1) as [Hlt | _]; [lia |].
  destruct (Z.ltb_spec (width o) 1) as [_ | Hge]; [reflexivity | lia].
Qed.

Lemma validate_ok (o : options) :
  1 <= height o -> 1 <= width o -> validate o = nil_error.
Proof.
  intros Hh Hw. unfold validate. cbv zeta.
  destruct (Z.ltb_spec (height o) 1) as [Hlt | _]; [lia |].
  destruct (Z.ltb_spec (width o) 1) as [Hlt | _]; [lia | reflexivity].
Qed.

(** The three outcomes are exhaustive and exclusive. *)
Lemma validate_cases (o : options) :
  (height o < 1 /\ validate o = Errorf (InvalidDimension "height" (height o) 1)) \/
  (1 <= height o /\ width o < 1 /\
     validate o = Errorf (InvalidDimension "width" (width o) 1)) \/
  (1 <= height o /\ 1 <= width o /\ validate o = nil_error).
Proof.
  destruct (Z.lt_ge_cases (height o) 1) as [Hh | Hh].
  - left. split; [assumption | now apply validate_height_low].
  - right. destruct (Z.lt_ge_cases (width o) 1) as [Hw | Hw].
    + left. repeat split; try assumption. now apply validate_width_low.
    + right. repeat split; try assumption. now apply validate_ok.
Qed.

(** Applying a concatenation is applying the prefix, then the rest. *)
Lemma applyOptions_app (pre post : list option) (o : options) :
  applyOptions (pre ++ post) o = applyOptions post (applyOptions pre o).
Proof. unfold applyOptions. apply fold_left_app. Qed.

Lemma applyOptions_snoc (opts : list option) (f : option) (o : options) :
  applyOptions (opts ++ [f]) o = option_set f (applyOptions opts o).
Proof. rewrite applyOptions_app. reflexivity. Qed.

(** C4.  For every label length [L >= 0] the default record has width
    [L + 2]: as Go computes [L + 2] for every [int] [L], and as the
    mathematical sum whenever that sum is an [int]. *)
Theorem newOptions_width_is_label_plus_two (L : Z) :
  0 <= L -> GoInt.in_range L ->
  width (newOptions L) = GoInt.add L 2 /\
  (L <= GoInt.max_int - 2 -> width (newOptions L) = L + 2).
Proof.
  intros Hnonneg [Hlo Hhi]. split.
  - reflexivity.
  - intros Hfit. simpl. apply GoInt_add_small.
    unfold GoInt.in_range in *. lia.
Qed.

(** C2.  What the code yields for label length 4 and no option: the five
    fields [newOptions] names hold the claimed defaults, the [key] field
    holds the zero value of [keyboard.Key], and it is [DefaultKey] exactly
    when [keyboard.KeyEnter] is that zero value. *)
Theorem newOptions_4_leaves_key_zero :
  applyOptions [] (newOptions 4) =
    {| fillColor := cell.ColorCyan;
       textColor := cell.ColorBlack;
       shadowColor := 250;
       height := 2;
       width := 6;
       key := 0 |} /\
  construct 4 [] = inr (applyOptions [] (newOptions 4)) /\
  (key (applyOptions [] (newOptions 4)) = DefaultKey <-> keyboard.KeyEnter = 0).
Proof.
  split; [reflexivity | split; [reflexivity |]].
  simpl. unfold DefaultKey. split; intros Heq; symmetry; exact Heq.
Qed.

(** C3.  Construction fails exactly when the record left by the options has
    height < 1 or width < 1; the error then names the dimension, the
    offending value and the minimum 1; a success returns that record as it
    is; a last [Height h] fails for [h < 1] and succeeds with height [h]
    for [h >= 1] and a valid width; the text for [Height 0] contains
    "height 0, must be 1 <= height". *)
Theorem construct_fails_iff_invalid_dimension (textWidth : Z) (opts : list option) :
  let o := applyOptions opts (newOptions textWidth) in
  ((exists msg, construct textWidth opts = inl msg) <->
     (height o < 1 \/ width o < 1)) /\
  (forall msg, construct textWidth opts = inl msg ->
     (height o < 1 /\ msg = InvalidDimension "height" (height o) 1) \/
     (1 <= height o /\ width o < 1 /\
        msg = InvalidDimension "width" (width o) 1)) /\
  (forall r, construct textWidth opts = inr r ->
     r = o /\ 1 <= height r /\ 1 <= width r) /\
  (forall h,
     let o' := applyOptions (opts ++ [Height h]) (newOptions textWidth) in
     (h < 1 ->
        construct textWidth (opts ++ [Height h]) =
          inl (InvalidDimension "height" h 1)) /\
     (1 <= h -> 1 <= width o' ->
        construct textWidth (opts ++ [Height h]) = inr o' /\ height o' = h)) /\
  Contains (InvalidDimension "height" 0 1) "height 0, must be 1 <= height".
Proof.
  intros o.
  assert (Hcases := validate_cases o).
  assert (Hdef : construct textWidth opts =
                 match validate o with nil_error => inr o | Errorf m => inl m end)
    by reflexivity.
  split; [split | split; [| split; [| split]]].
  - intros [msg Hmsg]. rewrite Hdef in Hmsg.
    destruct Hcases as [[Hh _] | [[Hh [Hw _]] | [_ [_ Hok]]]];
      [left; exact Hh | right; exact Hw | rewrite Hok in Hmsg; discriminate].
  - intros Hbad. rewrite Hdef.
    destruct Hcases as [[_ He] | [[_ [_ He]] | [Hh [Hw _]]]];
      [rewrite He; eauto | rewrite He; eauto | lia].
  - intros msg Hmsg. rewrite Hdef in Hmsg.
    destruct Hcases as [[Hh He] | [[Hh [Hw He]] | [_ [_ Hok]]]];
      rewrite ?He, ?Hok in Hmsg; try discriminate;
      injection Hmsg as <-; [left | right]; repeat split; assumption.
  - intros r Hr. rewrite Hdef in Hr.
    destruct Hcases as [[_ He] | [[_ [_ He]] | [Hh [Hw Hok]]]];
      rewrite ?He, ?Hok in Hr; try discriminate.
    injection Hr as <-. repeat split; assumption.
  - intros h o'.
    assert (Hsnoc : o' = option_set (Height h) o)
      by (unfold o', o; apply applyOptions_snoc).
    split.
    + intros Hlow. unfold construct. fold o'.
      rewrite (validate_height_low o'); rewrite Hsnoc; simpl; trivial.
    + intros Hh Hw. split.
      * unfold construct. fold o'. rewrite (validate_ok o'); trivial.
        rewrite Hsnoc. simpl. exact Hh.
      * rewrite Hsnoc. reflexivity.
  - exists "invalid "%string, ""%string. reflexivity.
Qed.

(** C7.  Validation looks at the record only after the whole option list
    has been applied: whatever state a prefix [pre] of the list leaves the
    record in, construction succeeds as soon as the final record has
    height >= 1 and width >= 1. *)
Theorem validation_sees_only_the_final_record
    (textWidth : Z) (pre post : list option) :
  let o := applyOptions post (applyOptions pre (newOptions textWidth)) in
  1 <= height o -> 1 <= width o ->
  construct textWidth (pre ++ post) = inr o.
Proof.
  intros o Hh Hw. unfold construct.
  rewrite applyOptions_app. fold o.
  now rewrite (validate_ok o Hh Hw).
Qed.

End WidgetOptions.

Section Setters.

Import button.

(** Two records with the same six fields are the same record. *)
Lemma options_ext (o o' : options) :
  (forall g, get g o = get g o') -> o = o'.
Proof.
  intros Hget. destruct o, o'.
  pose proof (Hget fFillColor). pose proof (Hget fTextColor).
  pose proof (Hget fShadowColor). pose proof (Hget fHeight).
  pose proof (Hget fWidth). pose proof (Hget fKey).
  simpl in *. congruence.
Qed.

Lemma field_eqb_eq (f g : field) : field_eqb f g = true <-> f = g.
Proof. destruct f, g; simpl; split; intros Heq; congruence. Qed.

#[local] Ltac by_fields := intros o g; destruct g; reflexivity.

Lemma FillColor_assigns (c : Z) : assigns (FillColor c) fFillColor c.
Proof. by_fields. Qed.
Lemma TextColor_assigns (c : Z) : assigns (TextColor c) fTextColor c.
Proof. by_fields. Qed.
Lemma ShadowColor_assigns (c : Z) : assigns (ShadowColor c) fShadowColor c.
Proof. by_fields. Qed.
Lemma Height_assigns (n : Z) : assigns (Height n) fHeight n.
Proof. by_fields. Qed.
Lemma Width_assigns (n : Z) : assigns (Width n) fWidth n.
Proof. by_fields. Qed.
Lemma Key_assigns (k : Z) : assigns (Key k) fKey k.
Proof. by_fields. Qed.

(** Any family of options that assigns its argument to one field is
    last-write-wins on that field. *)
Lemma assigns_last_write_wins (ctor : Z -> option) (f : field) :
  (forall v, assigns (ctor v) f v) -> last_write_wins ctor f.
Proof.
  intros Hctor o a b. split.
  - apply options_ext. intros g.
    rewrite (Hctor b (option_set (ctor a) o) g), (Hctor b o g), (Hctor a o g).
    destruct (field_eqb g f); reflexivity.
  - rewrite (Hctor b (option_set (ctor a) o) f).
    now rewrite (proj2 (field_eqb_eq f f) eq_refl).
Qed.

(** Options that assign different fields commute. *)
Lemma assigns_distinct_commute (p q : option) (f g : field) (v w : Z) :
  assigns p f v -> assigns q g w -> f <> g ->
  forall o, option_set p (option_set q o) = option_set q (option_set p o).
Proof.
  intros Hp Hq Hfg o. apply options_ext. intros x.
  rewrite (Hp (option_set q o) x), (Hq (option_set p o) x), (Hq o x), (Hp o x).
  destruct (field_eqb x f) eqn:Hxf, (field_eqb x g) eqn:Hxg; try reflexivity.
  apply field_eqb_eq in Hxf, Hxg. congruence.
Qed.

Lemma constructors_assign (p : (Z -> option) * field) :
  In p constructors -> forall v, assigns (fst p v) (snd p) v.
Proof.
  unfold constructors. simpl.
  intros [<- | [<- | [<- | [<- | [<- | [<- | []]]]]]] v; simpl.
  - apply FillColor_assigns.
  - apply TextColor_assigns.
  - apply ShadowColor_assigns.
  - apply Height_assigns.
  - apply Width_assigns.
  - apply Key_assigns.
Qed.

(** Options built by constructors of different fields can be applied in
    either order. *)
Theorem options_of_different_fields_commute
    (p q : (Z -> option) * field) (a b : Z) (o : options) :
  In p constructors -> In q constructors -> snd p <> snd q ->
  option_set (fst p a) (option_set (fst q b) o) =
  option_set (fst q b) (option_set (fst p a) o).
Proof.
  intros Hp Hq Hpq.
  apply (assigns_distinct_commute (fst p a) (fst q b) (snd p) (snd q) a b);
    [now apply constructors_assign | now apply constructors_assign | exact Hpq].
Qed.

(** C5.  Last write wins on every field of the widget options record: of
    two options from the same constructor, applied in sequence, the record
    shows the later value only; [Height 3] then [Height 5] gives height 5. *)
Theorem later_option_of_same_field_wins :
  last_write_wins FillColor fFillColor /\
  last_write_wins TextColor fTextColor /\
  last_write_wins ShadowColor fShadowColor /\
  last_write_wins Height fHeight /\
  last_write_wins Width fWidth /\
  last_write_wins Key fKey /\
  (forall o, height (option_set (Height 5) (option_set (Height 3) o)) = 5).
Proof.
  split; [apply assigns_last_write_wins, FillColor_assigns |].
  split; [apply assigns_last_write_wins, TextColor_assigns |].
  split; [apply assigns_last_write_wins, ShadowColor_assigns |].
  split; [apply assigns_last_write_wins, Height_assigns |].
  split; [apply assigns_last_write_wins, Width_assigns |].
  split; [apply assigns_last_write_wins, Key_assigns |].
  intros o.
  exact (proj2 (assigns_last_write_wins Height fHeight Height_assigns o 3 5)).
Qed.

(** C8.  Each public constructor returns an option that assigns its
    argument to one field and leaves the other fields of the record as they
    were; [WriteCellOpts] assigns the only field of [writeOptions]. *)
Theorem constructors_assign_one_field (c : cell.Color) (n : Z) (k : keyboard.Key)
    (cs : list cell.Option) :
  assigns (FillColor c) fFillColor c /\
  assigns (TextColor c) fTextColor c /\
  assigns (ShadowColor c) fShadowColor c /\
  assigns (Height n) fHeight n /\
  assigns (Width n) fWidth n /\
  assigns (Key k) fKey k /\
  (forall wo, cellOpts (writeOption_set (WriteCellOpts cs) wo) = cs).
Proof.
  split; [apply FillColor_assigns |].
  split; [apply TextColor_assigns |].
  split; [apply ShadowColor_assigns |].
  split; [apply Height_assigns |].
  split; [apply Width_assigns |].
  split; [apply Key_assigns |].
  intros wo. reflexivity.
Qed.

(** C10.  With height < 1 and width < 1 at once, [validate] returns the
    height error, citing the height, and not the width error. *)
Theorem validate_reports_height_first (o : options) :
  height o < 1 -> width o < 1 ->
  validate o = Errorf (InvalidDimension "height" (height o) 1) /\
  validate o <> Errorf (InvalidDimension "width" (width o) 1).
Proof.
  intros Hh Hw. rewrite (validate_height_low o Hh). split.
  - reflexivity.
  - intros Heq. injection Heq as Heq.
    unfold InvalidDimension in Heq. simpl in Heq. discriminate Heq.
Qed.

End Setters.

(** ** Write options *)

Section WriteOptions.

Import button.

(** A list in which no directive sets a foreground color counts none. *)
Lemma countFgColor_none (xs : list cell.Option) :
  cell.hasFgColor xs = false -> cell.countFgColor xs = 0%nat.
Proof.
  unfold cell.hasFgColor, cell.countFgColor.
  induction xs as [| x xs IH]; simpl; intros Hnone.
  - reflexivity.
  - apply Bool.orb_false_iff in Hnone as [Hx Hxs].
    rewrite Hx. now apply IH.
Qed.

Lemma countFgColor_cons_fg (c : cell.Color) (xs : list cell.Option) :
  cell.countFgColor (cell.FgColor c :: xs) = S (cell.countFgColor xs).
Proof. reflexivity. Qed.

(** The cell attributes are set independently of each other. *)
Lemma applyAll_fg_from_fg (xs : list cell.Option) (a b : cell.Options) :
  cell.fg a = cell.fg b -> cell.fg (cell.applyAll xs a) = cell.fg (cell.applyAll xs b).
Proof.
  revert a b. induction xs as [| x xs IH]; intros a b Hab; simpl.
  - exact Hab.
  - apply IH. destruct x; simpl; [reflexivity | exact Hab].
Qed.

Lemma applyAll_bg_from_bg (xs : list cell.Option) (a b : cell.Options) :
  cell.bg a = cell.bg b -> cell.bg (cell.applyAll xs a) = cell.bg (cell.applyAll xs b).
Proof.
  revert a b. induction xs as [| x xs IH]; intros a b Hab; simpl.
  - exact Hab.
  - apply IH. destruct x; simpl; [exact Hab | reflexivity].
Qed.

(** A list that sets the foreground color decides it on its own. *)
Lemma applyAll_fg_decided (xs : list cell.Option) (a b : cell.Options) :
  cell.hasFgColor xs = true ->
  cell.fg (cell.applyAll xs a) = cell.fg (cell.applyAll xs b).
Proof.
  revert a b. induction xs as [| x xs IH]; intros a b Hsome; simpl in *.
  - discriminate.
  - destruct x as [c | c]; simpl in *.
    + now apply applyAll_fg_from_fg.
    + now apply IH.
Qed.

(** A list that sets no foreground color leaves it as it finds it. *)
Lemma applyAll_fg_untouched (xs : list cell.Option) (a : cell.Options) :
  cell.hasFgColor xs = false -> cell.fg (cell.applyAll xs a) = cell.fg a.
Proof.
  revert a. induction xs as [| x xs IH]; intros a Hnone.
  - reflexivity.
  - simpl in Hnone. apply Bool.orb_false_iff in Hnone as [Hx Hxs].
    destruct x as [k | k]; [discriminate Hx |].
    change (cell.fg (cell.applyAll xs (cell.Set_ (cell.BgColor k) a)) = cell.fg a).
    now rewrite (IH _ Hxs).
Qed.

(** Why the default is put in front: a caller's own foreground directive
    comes later in the list and so still decides the cell's foreground;
    without one the cell gets the default. *)
Lemma default_fg_only_fills_the_gap (wo : writeOptions) (c : cell.Color)
    (init : cell.Options) :
  let styled := cell.applyAll (cellOpts (setDefaultFgColor wo c)) init in
  cell.bg styled = cell.bg (cell.applyAll (cellOpts wo) init) /\
  (cell.hasFgColor (cellOpts wo) = true ->
     cell.fg styled = cell.fg (cell.applyAll (cellOpts wo) init)) /\
  (cell.hasFgColor (cellOpts wo) = false -> cell.fg styled = c).
Proof.
  destruct wo as [xs]. simpl. split; [| split].
  - now apply applyAll_bg_from_bg.
  - intros Hsome. now apply applyAll_fg_decided.
  - intros Hnone.
    now rewrite (applyAll_fg_untouched xs _ Hnone).
Qed.

(** C1, as amended.  [setDefaultFgColor] puts exactly one [FgColor c] at the
    front of the styling list, when no directive of the list sets a
    foreground color (the result then holds exactly one such directive) and
    also when one does; it removes no entry and adds exactly one. *)
Theorem setDefaultFgColor_puts_default_in_front (wo : writeOptions) (c : cell.Color) :
  let xs := cellOpts wo in
  let ys := cellOpts (setDefaultFgColor wo c) in
  (cell.hasFgColor xs = false ->
     ys = cell.FgColor c :: xs /\ cell.countFgColor ys = 1%nat) /\
  (cell.hasFgColor xs = true ->
     ys = cell.FgColor c :: xs /\ cell.countFgColor ys = S (cell.countFgColor xs)) /\
  (forall x, In x xs -> In x ys) /\
  List.length ys = S (List.length xs).
Proof.
  intros xs ys. split; [| split; [| split]].
  - intros Hnone. split; [reflexivity |].
    unfold ys, setDefaultFgColor. simpl.
    rewrite countFgColor_cons_fg. fold xs.
    now rewrite (countFgColor_none xs Hnone).
  - intros _. split; [reflexivity | apply countFgColor_cons_fg].
  - intros x Hx. right. exact Hx.
  - reflexivity.
Qed.

(** C1, as stated, fails: a list that already holds a foreground-color
    directive is not left unchanged. *)
Lemma setDefaultFgColor_changes_list_with_fg :
  cell.hasFgColor [cell.FgColor 2] = true /\
  cellOpts (setDefaultFgColor {| cellOpts := [cell.FgColor 2] |} 1) =
    [cell.FgColor 1; cell.FgColor 2] /\
  cellOpts (setDefaultFgColor {| cellOpts := [cell.FgColor 2] |} 1) <>
    cellOpts {| cellOpts := [cell.FgColor 2] |}.
Proof.
  split; [reflexivity | split; [reflexivity |]].
  simpl. intros Heq. discriminate Heq.
Qed.

(** Every option applied after the last [WriteCellOpts] is none: the record
    is whatever the last one wrote. *)
Lemma newWriteOptions_snoc (pre : list writeOption) (o : writeOption) :
  newWriteOptions (pre ++ [o]) = writeOption_set o (newWriteOptions pre).
Proof. unfold newWriteOptions. rewrite fold_left_app. reflexivity. Qed.

Lemma app_nonempty_longer {A : Type} (xs ys : list A) :
  xs <> [] -> ys <> xs ++ ys.
Proof.
  intros Hne Heq. apply (f_equal (@List.length A)) in Heq.
  rewrite length_app in Heq.
  destruct xs as [| x xs]; [now apply Hne | simpl in Heq; lia].
Qed.

(** C6.  [WriteCellOpts A] then [WriteCellOpts B] leaves the styling list
    [B], which is not [A ++ B] unless [A] is empty; whatever came before,
    the last [WriteCellOpts] alone decides the list. *)
Theorem WriteCellOpts_replaces_the_list (A B : list cell.Option) :
  cellOpts (newWriteOptions [WriteCellOpts A; WriteCellOpts B]) = B /\
  (A <> [] ->
     cellOpts (newWriteOptions [WriteCellOpts A; WriteCellOpts B]) <> A ++ B) /\
  (forall pre, cellOpts (newWriteOptions (pre ++ [WriteCellOpts B])) = B).
Proof.
  split; [reflexivity | split].
  - intros Hne. simpl. now apply app_nonempty_longer.
  - intros pre. now rewrite newWriteOptions_snoc.
Qed.

(** C9.  [setDefaultFgColor c] yields [FgColor c] followed by the old list,
    whatever the old list holds: one entry longer, the old entries in their
    order as the suffix. *)
Theorem setDefaultFgColor_prepends (wo : writeOptions) (c : cell.Color) :
  cellOpts (setDefaultFgColor wo c) = cell.FgColor c :: cellOpts wo /\
  List.length (cellOpts (setDefaultFgColor wo c)) = S (List.length (cellOpts wo)) /\
  skipn 1 (cellOpts (setDefaultFgColor wo c)) = cellOpts wo /\
  (forall i, nth_error (cellOpts (setDefaultFgColor wo c)) (S i) =
             nth_error (cellOpts wo) i).
Proof.
  assert (Hcons : cellOpts (setDefaultFgColor wo c) = cell.FgColor c :: cellOpts wo)
    by reflexivity.
  rewrite Hcons. split; [reflexivity |]. split; [reflexivity |].
  split; [reflexivity |]. intros i. reflexivity.
Qed.

End WriteOptions.

(** ** The theorems at concrete inputs *)

(** C4 at label length 4: the default width is 6. *)
Lemma newOptions_width_at_4 :
  button.width (@button.newOptions button.sample_colors 4) = 6.
Proof.
  destruct (@newOptions_width_is_label_plus_two button.sample_colors 4)
    as [_ Hsum].
  - lia.
  - unfold GoInt.in_range, GoInt.min_int, GoInt.max_int, GoInt.bits. lia.
  - apply Hsum. unfold GoInt.max_int, GoInt.bits. lia.
Defined.

(** C3 at label length 4: a last [Height 0] fails with the height error, a
    last [Height 3] succeeds with height 3. *)
Lemma construct_at_Height_0_and_3 :
  @button.construct button.sample_colors 4 ([] ++ [button.Height 0]) =
    inl "invalid height 0, must be 1 <= height"%string /\
  @button.construct button.sample_colors 4 ([] ++ [button.Height 3]) =
    inr {| button.fillColor := 7; button.textColor := 1;
           button.shadowColor := 250; button.height := 3;
           button.width := 6; button.key := 0 |}.
Proof.
  pose proof (@construct_fails_iff_invalid_dimension button.sample_colors 4 [])
    as Hthm.
  cbv zeta in Hthm. destruct Hthm as (_ & _ & _ & Hlast & _).
  split.
  - apply (proj1 (Hlast 0)). lia.
  - apply (proj1 (proj2 (Hlast 3) ltac:(lia) ltac:(vm_compute; discriminate))).
Defined.

(** C7 at label length 4: after [Height 0] alone validation would fail,
    yet [Height 0] followed by [Height 2] constructs the widget options. *)
Lemma construct_Height_0_then_Height_2 :
  button.validate
    (button.applyOptions [button.Height 0]
       (@button.newOptions button.sample_colors 4)) =
    Errorf "invalid height 0, must be 1 <= height" /\
  @button.construct button.sample_colors 4
    ([button.Height 0] ++ [button.Height 2]) =
    inr {| button.fillColor := 7; button.textColor := 1;
           button.shadowColor := 250; button.height := 2;
           button.width := 6; button.key := 0 |}.
Proof.
  split.
  - reflexivity.
  - apply (@validation_sees_only_the_final_record button.sample_colors 4
             [button.Height 0] [button.Height 2]);
      vm_compute; intros Hgt; discriminate Hgt.
Defined.

(** C10 at height 0 and width -3: the error is the height error. *)
Lemma validate_height_0_width_minus_3 :
  button.validate
    {| button.fillColor := 7; button.textColor := 1;
       button.shadowColor := 250; button.height := 0;
       button.width := -3; button.key := 0 |} =
    Errorf "invalid height 0, must be 1 <= height".
Proof.
  apply (validate_reports_height_first
           {| button.fillColor := 7; button.textColor := 1;
              button.shadowColor := 250; button.height := 0;
              button.width := -3; button.key := 0 |}); simpl; lia.
Defined.

(** C1 (amended) at a list with a background directive only: the default
    goes in front and is the one foreground directive of the result. *)
Lemma setDefaultFgColor_on_background_only :
  button.cellOpts
    (button.setDefaultFgColor {| button.cellOpts := [cell.BgColor 3] |} 1) =
    [cell.FgColor 1; cell.BgColor 3] /\
  cell.countFgColor
    (button.cellOpts
       (button.setDefaultFgColor {| button.cellOpts := [cell.BgColor 3] |} 1)) =
    1%nat.
Proof.
  exact (proj1 (setDefaultFgColor_puts_default_in_front
                  {| button.cellOpts := [cell.BgColor 3] |} 1) eq_refl).
Defined.

(** [Height 3] and [Width 9] in either order. *)
Lemma Height_and_Width_commute_at_3_9 :
  button.option_set (button.Height 3)
    (button.option_set (button.Width 9)
       (@button.newOptions button.sample_colors 4)) =
  button.option_set (button.Width 9)
    (button.option_set (button.Height 3)
       (@button.newOptions button.sample_colors 4)).
Proof.
  apply (options_of_different_fields_commute
           (button.Height, button.fHeight) (button.Width, button.fWidth) 3 9).
  - unfold button.constructors. simpl. tauto.
  - unfold button.constructors. simpl. tauto.
  - simpl. intros Heq. discriminate Heq.
Defined.

(** * Further properties of the code *)

(** ** Default records and validation *)

Lemma GoInt_wrap_overflow (z : Z) :
  GoInt.max_int < z <= GoInt.max_int + 2 ^ GoInt.bits ->
  GoInt.wrap z = z - 2 ^ GoInt.bits.
Proof.
  unfold GoInt.wrap, GoInt.min_int, GoInt.max_int, GoInt.bits.
  replace (2 ^ (64 - 1)) with 9223372036854775808 by reflexivity.
  replace (2 ^ 64) with 18446744073709551616 by reflexivity.
  intros Hz.
  match goal with
  | |- context [?a mod ?b] =>
      rewrite <- (Z.mod_unique a b 1 (z - 9223372036854775808)); lia
  end.
Qed.

Section Defaults.

Import button.

Context {colors : cell.Constants}.

(** [validate] reads the height and the width and nothing else. *)
Lemma validate_ext (o o' : options) :
  height o = height o' -> width o = width o' -> validate o = validate o'.
Proof. intros Hh Hw. unfold validate. now rewrite Hh, Hw. Qed.

(** The default record passes [validate] exactly for the label widths from
    -1 to MaxInt - 2.  Below -1 the width is not positive; at MaxInt - 1
    and MaxInt the sum [textWidth + 2] wraps to a negative width.  A
    default record that fails always fails on its width, and a [Width]
    option with a positive argument makes every default record valid. *)
Theorem default_record_valid_iff_label_width_in_bounds (L : Z) :
  GoInt.in_range L ->
  (validate (newOptions L) = nil_error <-> -1 <= L <= GoInt.max_int - 2) /\
  (~ (-1 <= L <= GoInt.max_int - 2) ->
     validate (newOptions L) =
       Errorf (InvalidDimension "width" (GoInt.add L 2) 1) /\
     GoInt.add L 2 < 1) /\
  (forall w, 1 <= w ->
     validate (option_set (Width w) (newOptions L)) = nil_error).
Proof.
  intros HL.
  assert (Hheight : height (newOptions L) = 2) by reflexivity.
  assert (Hwidth : width (newOptions L) = GoInt.add L 2) by reflexivity.
  assert (Hin : -1 <= L <= GoInt.max_int - 2 -> GoInt.add L 2 = L + 2).
  { intros Hb. apply GoInt_add_small.
    unfold GoInt.in_range, GoInt.min_int, GoInt.max_int, GoInt.bits in *. lia. }
  assert (Hout : ~ (-1 <= L <= GoInt.max_int - 2) -> GoInt.add L 2 < 1).
  { intros Hb. destruct (Z.le_gt_cases L (GoInt.max_int - 2)) as [Hle | Hgt].
    - rewrite GoInt_add_small;
        unfold GoInt.in_range, GoInt.min_int, GoInt.max_int, GoInt.bits in *; lia.
    - unfold GoInt.add. rewrite GoInt_wrap_overflow;
        unfold GoInt.in_range, GoInt.min_int, GoInt.max_int, GoInt.bits in *; lia. }
  split; [split | split].
  - intros Hok.
    destruct (Z_le_dec (-1) L) as [Hlo | Hlo];
      [destruct (Z_le_dec L (GoInt.max_int - 2)) as [Hhi | Hhi] |];
      [split; assumption | exfalso | exfalso];
      (assert (Hbad : GoInt.add L 2 < 1) by (apply Hout; lia);
       rewrite (validate_width_low (newOptions L)) in Hok;
       [discriminate Hok | rewrite Hheight; lia | rewrite Hwidth; exact Hbad]).
  - intros Hb. apply validate_ok.
    + rewrite Hheight. lia.
    + rewrite Hwidth, (Hin Hb). lia.
  - intros Hb. split; [| now apply Hout].
    rewrite <- Hwidth. apply validate_width_low.
    + rewrite Hheight. lia.
    + rewrite Hwidth. now apply Hout.
  - intros w Hw. apply validate_ok; simpl; [unfold DefaultHeight; lia | exact Hw].
Qed.

End Defaults.

(** ** Lists of settings *)

Section Settings.

Import button.

Lemma ctor_assigns (f : field) (v : Z) : assigns (ctor f v) f v.
Proof.
  destruct f; simpl;
    [ apply FillColor_assigns | apply TextColor_assigns
    | apply ShadowColor_assigns | apply Height_assigns
    | apply Width_assigns | apply Key_assigns ].
Qed.

(** A color or key option never changes what [validate] answers. *)
Theorem color_and_key_options_keep_validity (f : field) (v : Z) (o : options) :
  f <> fHeight -> f <> fWidth ->
  validate (option_set (ctor f v) o) = validate o.
Proof.
  intros Hh Hw. apply validate_ext.
  - change (get fHeight (option_set (ctor f v) o) = get fHeight o).
    rewrite (ctor_assigns f v o fHeight).
    destruct (field_eqb fHeight f) eqn:Heq; [| reflexivity].
    apply field_eqb_eq in Heq. congruence.
  - change (get fWidth (option_set (ctor f v) o) = get fWidth o).
    rewrite (ctor_assigns f v o fWidth).
    destruct (field_eqb fWidth f) eqn:Heq; [| reflexivity].
    apply field_eqb_eq in Heq. congruence.
Qed.

(** What a field reads after a sequence of constructor-built options. *)
Lemma get_after_settings (ss : list setting) (o : options) (f : field) :
  get f (fold_left (fun acc p => option_set p acc) (map build ss) o) =
    match last_setting f ss with
    | Some v => v
    | None => get f o
    end.
Proof.
  revert o. induction ss as [| s ss IH]; intros o.
  - reflexivity.
  - simpl. rewrite IH.
    destruct (last_setting f ss) as [v |]; [reflexivity |].
    unfold build. rewrite (ctor_assigns (fst s) (snd s) o f).
    destruct (field_eqb f (fst s)); reflexivity.
Qed.

Lemma validate_nil_iff (o : options) :
  validate o = nil_error <-> 1 <= height o /\ 1 <= width o.
Proof.
  split.
  - intros Hok.
    destruct (validate_cases o) as [[_ He] | [[_ [_ He]] | [Hh [Hw _]]]];
      [rewrite He in Hok; discriminate Hok
      | rewrite He in Hok; discriminate Hok
      | split; assumption].
  - intros [Hh Hw]. now apply validate_ok.
Qed.

(** After any sequence of constructor-built options has been set, in order,
    on a record, each field holds the argument of the last option of the
    sequence that names it, and its old value when none does; so the record
    passes [validate] exactly when the last [Height] and the last [Width]
    of the sequence (or the old height and width) are at least 1. *)
Theorem settings_decide_fields_and_validity (ss : list setting) (o : options) :
  let o' := fold_left (fun acc p => option_set p acc) (map build ss) o in
  let final f :=
    match last_setting f ss with
    | Some v => v
    | None => get f o
    end in
  (forall f, get f o' = final f) /\
  (validate o' = nil_error <-> 1 <= final fHeight /\ 1 <= final fWidth).
Proof.
  intros o' final.
  assert (Hget : forall f, get f o' = final f)
    by (intros f; apply get_after_settings).
  split; [exact Hget |].
  rewrite validate_nil_iff.
  change (height o') with (get fHeight o').
  change (width o') with (get fWidth o').
  now rewrite !Hget.
Qed.

(** The key is set by a [Key] option only: after any sequence of
    constructor-built options without one, on the default record of any
    label width, the key is still the zero value [newOptions] leaves. *)
Theorem key_stays_zero_without_Key_option
    {colors : cell.Constants} (L : Z) (ss : list setting) :
  last_setting fKey ss = None ->
  key (fold_left (fun acc p => option_set p acc) (map build ss) (newOptions L)) = 0.
Proof.
  intros Hnone.
  change (get fKey
            (fold_left (fun acc p => option_set p acc) (map build ss)
               (newOptions L)) = 0).
  now rewrite get_after_settings, Hnone.
Qed.

End Settings.

(** ** Sequences of write options *)

Section WriteSequences.

Import button.

Lemma last_cons_default {A : Type} (a d : A) (l : list A) :
  last (a :: l) d = last l a.
Proof.
  revert a d. induction l as [| b l IH]; intros a d.
  - reflexivity.
  - change (last (b :: l) d = last (b :: l) a).
    now rewrite (IH b d), (IH b a).
Qed.

Lemma fold_WriteCellOpts (ls : list (list cell.Option)) (wo : writeOptions) :
  fold_left (fun acc o => writeOption_set o acc) (map WriteCellOpts ls) wo =
    {| cellOpts := last ls (cellOpts wo) |}.
Proof.
  revert wo. induction ls as [| l ls IH]; intros wo.
  - now destruct wo.
  - simpl map. simpl fold_left. rewrite IH.
    now rewrite last_cons_default.
Qed.

(** [newWriteOptions] over any number of [WriteCellOpts] options keeps the
    list of the last one, and the empty list when there is none; after
    [setDefaultFgColor c] the styling list is [FgColor c] followed by it. *)
Theorem newWriteOptions_keeps_last_list
    (ls : list (list cell.Option)) (c : cell.Color) :
  newWriteOptions (map WriteCellOpts ls) = {| cellOpts := last ls [] |} /\
  cellOpts (setDefaultFgColor (newWriteOptions (map WriteCellOpts ls)) c) =
    cell.FgColor c :: last ls [].
Proof.
  assert (Hlast : newWriteOptions (map WriteCellOpts ls) =
                    {| cellOpts := last ls [] |})
    by (unfold newWriteOptions; now rewrite fold_WriteCellOpts).
  split; [exact Hlast |]. now rewrite Hlast.
Qed.

(** [setDefaultFgColor] is not idempotent: called once per color of [cs],
    in order, it stacks one directive per call in front of the list, the
    color of the latest call first, and drops or merges nothing. *)
Theorem setDefaultFgColor_calls_stack (cs : list cell.Color) (wo : writeOptions) :
  cellOpts (fold_left setDefaultFgColor cs wo) =
    map cell.FgColor (rev cs) ++ cellOpts wo /\
  List.length (cellOpts (fold_left setDefaultFgColor cs wo)) =
    (List.length cs + List.length (cellOpts wo))%nat.
Proof.
  assert (Hlist : forall cs wo, cellOpts (fold_left setDefaultFgColor cs wo) =
                    map cell.FgColor (rev cs) ++ cellOpts wo).
  { clear cs wo. induction cs as [| c cs IH]; intros wo.
    - reflexivity.
    - simpl fold_left. rewrite IH. simpl rev.
      rewrite map_app, <- app_assoc. reflexivity. }
  split; [apply Hlist |].
  rewrite Hlist, length_app, length_map, length_rev. reflexivity.
Qed.

End WriteSequences.

(** ** The error text identifies what failed *)

Section ErrorText.

Import button.

Lemma string_length_append (s t : string) :
  String.length (s ++ t) = (String.length s + String.length t)%nat.
Proof. induction s as [| c s IH]; simpl; [reflexivity | now rewrite IH]. Qed.

Lemma string_append_cancel_l (p s t : string) :
  (p ++ s)%string = (p ++ t)%string -> s = t.
Proof.
  induction p as [| c p IH]; simpl; intros Heq.
  - exact Heq.
  - injection Heq as Heq. now apply IH.
Qed.

Lemma string_append_cancel_r (s t q : string) :
  (s ++ q)%string = (t ++ q)%string -> s = t.
Proof.
  revert t. induction s as [| c s IH]; intros [| c' t] Heq.
  - reflexivity.
  - apply (f_equal String.length) in Heq.
    simpl in Heq. rewrite string_length_append in Heq. lia.
  - apply (f_equal String.length) in Heq.
    simpl in Heq. rewrite string_length_append in Heq. lia.
  - simpl in Heq. injection Heq as Hc Heq. subst c'.
    f_equal. now apply IH.
Qed.

(** The verb [%d] prints different integers differently. *)
Lemma fmt_d_inj (a b : Z) : fmt.d a = fmt.d b -> a = b.
Proof.
  unfold fmt.d. intros Heq.
  assert (Hread : forall z,
            NilZero.int_of_string (NilZero.string_of_int (Z.to_int z)) =
              Some (Z.to_int z)).
  { intros z. apply NilZero.isi; destruct z; simpl; try discriminate;
      intros Hnil; injection Hnil as Hnil;
      now apply DecimalPos.Unsigned.to_uint_nonnil in Hnil. }
  pose proof (Hread a) as Ha. rewrite Heq, Hread in Ha.
  injection Ha as Ha.
  rewrite <- (DecimalZ.of_to a), <- (DecimalZ.of_to b). now rewrite Ha.
Qed.

Lemma InvalidDimension_inj (dim : string) (a b : Z) :
  InvalidDimension dim a 1 = InvalidDimension dim b 1 -> a = b.
Proof.
  unfold InvalidDimension. intros Heq.
  apply string_append_cancel_l in Heq.
  apply string_append_cancel_l in Heq.
  apply string_append_cancel_l in Heq.
  apply string_append_cancel_r in Heq.
  now apply fmt_d_inj.
Qed.

Lemma Errorf_inj (a b : string) : Errorf a = Errorf b -> a = b.
Proof. intros Heq. congruence. Qed.

(** Two records on which [validate] returns the same error failed on the
    same dimension with the same offending value: the text of the error
    tells the dimension and the value apart from all others. *)
Theorem validate_error_identifies_dimension_and_value
    (o o' : options) (msg : string) :
  validate o = Errorf msg -> validate o' = Errorf msg ->
  (height o < 1 /\ height o' = height o) \/
  (1 <= height o /\ 1 <= height o' /\ width o < 1 /\ width o' = width o).
Proof.
  intros Ho Ho'.
  destruct (validate_cases o) as [[Hh He] | [[Hh [Hw He]] | [_ [_ He]]]];
    rewrite He in Ho; try discriminate Ho; apply Errorf_inj in Ho; subst msg;
    destruct (validate_cases o') as [[Hh' He'] | [[Hh' [Hw' He']] | [_ [_ He']]]];
    rewrite He' in Ho'; try discriminate Ho'; apply Errorf_inj in Ho'.
  - left. split; [exact Hh |]. now apply (InvalidDimension_inj "height").
  - right. repeat split; try assumption.
    now apply (InvalidDimension_inj "width").
Qed.

End ErrorText.

(** ** The further properties at concrete inputs *)

(** At label width MaxInt - 1 the default width wraps to MinInt and the
    default record is refused. *)
Lemma default_record_at_MaxInt_minus_1 :
  button.validate (@button.newOptions button.sample_colors 9223372036854775806) =
    Errorf "invalid width -9223372036854775808, must be 1 <= width".
Proof.
  assert (Hrange : GoInt.in_range 9223372036854775806)
    by (unfold GoInt.in_range, GoInt.min_int, GoInt.max_int, GoInt.bits; lia).
  assert (Hout : ~ (-1 <= 9223372036854775806 <= GoInt.max_int - 2))
    by (unfold GoInt.max_int, GoInt.bits; lia).
  exact (proj1 (proj1 (proj2 (@default_record_valid_iff_label_width_in_bounds
                                button.sample_colors 9223372036854775806 Hrange))
                 Hout)).
Defined.

(** A [Key] option on a record of height 0 leaves the height error. *)
Lemma Key_keeps_height_error :
  button.validate
    (button.option_set (button.Key 13)
       {| button.fillColor := 7; button.textColor := 1;
          button.shadowColor := 250; button.height := 0;
          button.width := 6; button.key := 0 |}) =
    Errorf "invalid height 0, must be 1 <= height".
Proof.
  rewrite (color_and_key_options_keep_validity button.fKey 13).
  - reflexivity.
  - intros Heq. discriminate Heq.
  - intros Heq. discriminate Heq.
Defined.

(** Two records refused with the text for height 0 both have height 0,
    whatever their widths. *)
Lemma same_height_error_same_height :
  (0 < 1 /\ 0 = 0) \/ (1 <= 0 /\ 1 <= 0 /\ 6 < 1 /\ -3 = 6).
Proof.
  exact (validate_error_identifies_dimension_and_value
           {| button.fillColor := 7; button.textColor := 1;
              button.shadowColor := 250; button.height := 0;
              button.width := 6; button.key := 0 |}
           {| button.fillColor := 7; button.textColor := 1;
              button.shadowColor := 250; button.height := 0;
              button.width := -3; button.key := 0 |}
           "invalid height 0, must be 1 <= height" eq_refl eq_refl).
Defined.

(** Colors and sizes set, no key: the key is the zero key. *)
Lemma key_after_colors_and_sizes :
  button.key
    (fold_left (fun acc p => button.option_set p acc)
       (map button.build
          [(button.fFillColor, 3); (button.fHeight, 5); (button.fWidth, 9)])
       (@button.newOptions button.sample_colors 4)) = 0.
Proof.
  apply (@key_stays_zero_without_Key_option button.sample_colors 4
           [(button.fFillColor, 3); (button.fHeight, 5); (button.fWidth, 9)]).
  reflexivity.
Defined.
